(** * AzureOpenAIConnector: a shallow embedding of
      [connectors/azure-openai-connector.py]

    The connector forwards a prompt to a chat-completion endpoint and
    turns the reply into text.  The Python source is dynamically typed:
    the error body is probed with [isinstance] and [in], the response is
    declared [Any].  The embedding therefore works over a small universe
    of Python values with the run-time failures of the operators the
    source uses ([in], subscription, attribute access) written out. *)

From Stdlib Require Import ZArith String Ascii SpecFloat.
From stdpp Require Import base option list strings gmap fin_maps.

Set Warnings "-register-all".
Local Open Scope string_scope.

(** ** Python values *)

Module Py.

(** JSON-decoded data ([None], [bool], [int], [float], [str], [list],
    [dict] with string keys) and plain objects carrying attributes (the
    SDK's response models).  Floats are IEEE-754 doubles. *)
Inductive pyval : Type :=
  | PNone
  | PBool (b : bool)
  | PInt (z : Z)
  | PFloat (f : spec_float)
  | PStr (s : string)
  | PList (l : list pyval)
  | PDict (d : gmap string pyval)
  | PObj (attrs : gmap string pyval).

(** Exceptions.  [BadRequestError] is the SDK's HTTP-400 error with its
    message and decoded body; [OtherException] stands for every other
    class the remote call can raise (time-outs, rate limits, connection
    errors); the remaining four are the built-in errors of the operators
    below. *)
Inductive exception : Type :=
  | BadRequestError (message : string) (body : pyval)
  | OtherException (cls message : string)
  | TypeError
  | KeyError (key : pyval)
  | IndexError
  | AttributeError (name : string).

Inductive outcome (A : Type) : Type :=
  | Returned (a : A)
  | Raised (e : exception).
Arguments Returned {A} a.
Arguments Raised {A} e.

(** [bool(v)]: the truth value tested by [if v:]. *)
Definition truthy (v : pyval) : bool :=
  match v with
  | PNone => false
  | PBool b => b
  | PInt z => negb (z =? 0)%Z
  | PFloat (S754_zero _) => false
  | PFloat _ => true
  | PStr s => negb (String.eqb s "")
  | PList l => match l with [] => false | _ :: _ => true end
  | PDict d => negb (bool_decide (d = ∅))
  | PObj _ => true
  end.

(** [hay.startswith(needle)] *)
Fixpoint starts_with (needle hay : string) : bool :=
  match needle, hay with
  | EmptyString, _ => true
  | String _ _, EmptyString => false
  | String a needle', String b hay' => Ascii.eqb a b && starts_with needle' hay'
  end.

(** [needle in hay] on two strings: substring search. *)
Fixpoint str_contains (needle hay : string) : bool :=
  starts_with needle hay
  || match hay with
     | EmptyString => false
     | String _ rest => str_contains needle rest
     end.

(** [s == v] for a string [s]: only an equal string compares equal. *)
Definition str_eq_val (s : string) (v : pyval) : bool :=
  match v with
  | PStr s' => String.eqb s s'
  | _ => false
  end.

(** [isinstance(v, dict)] *)
Definition isinstance_dict (v : pyval) : bool :=
  match v with
  | PDict _ => true
  | _ => false
  end.

(** [key in container] for a string [key]: key membership on a dict,
    substring on a string, element equality on a list; anything else is
    not iterable. *)
Definition contains (key : string) (container : pyval) : outcome bool :=
  match container with
  | PDict d => Returned (bool_decide (is_Some (d !! key)))
  | PStr s => Returned (str_contains key s)
  | PList l => Returned (existsb (str_eq_val key) l)
  | PNone | PBool _ | PInt _ | PFloat _ | PObj _ => Raised TypeError
  end.

(** [container[key]] for a string [key]. *)
Definition getitem (key : string) (container : pyval) : outcome pyval :=
  match container with
  | PDict d =>
      match d !! key with
      | Some v => Returned v
      | None => Raised (KeyError (PStr key))
      end
  | _ => Raised TypeError
  end.

(** [container[i]] for an integer [i]; negative indices count from the
    end.  Dicts here have string keys only, so an integer key is
    missing. *)
Definition list_index {A} (i : Z) (l : list A) : option A :=
  if (0 <=? i)%Z then l !! Z.to_nat i
  else if (0 <=? Z.of_nat (length l) + i)%Z then l !! Z.to_nat (Z.of_nat (length l) + i)
  else None.

Fixpoint chars (s : string) : list ascii :=
  match s with
  | EmptyString => []
  | String c rest => c :: chars rest
  end.

Definition getitem_int (i : Z) (container : pyval) : outcome pyval :=
  match container with
  | PList l =>
      match list_index i l with
      | Some v => Returned v
      | None => Raised IndexError
      end
  | PStr s =>
      match list_index i (chars s) with
      | Some c => Returned (PStr (String c EmptyString))
      | None => Raised IndexError
      end
  | PDict _ => Raised (KeyError (PInt i))
  | PNone | PBool _ | PInt _ | PFloat _ | PObj _ => Raised TypeError
  end.

(** [o.name].  Only [choices], [message] and [content] are ever asked
    for, and no built-in type has an attribute of those names. *)
Definition getattr (name : string) (o : pyval) : outcome pyval :=
  match o with
  | PObj attrs =>
      match attrs !! name with
      | Some v => Returned v
      | None => Raised (AttributeError name)
      end
  | _ => Raised (AttributeError name)
  end.

(** [d.get(key, default)] *)
Definition dict_get (d : gmap string pyval) (key : string) (default : pyval) : pyval :=
  match d !! key with
  | Some v => v
  | None => default
  end.

Definition is_str (v : pyval) : bool :=
  match v with
  | PStr _ => true
  | _ => false
  end.

End Py.
Export Py.

(** ** The connector object *)

(** The fields the base class [Connector] sets in [super().__init__]
    and this file reads.  The base class is outside this file; the fields
    are the ones the source accesses on [self], the prompt fragments being
    text and the rest whatever the endpoint configuration holds. *)
Record Connector : Type := {
  token : string;
  endpoint : string;
  optional_params : gmap string pyval;
  pre_prompt : string;
  post_prompt : string;
  system_prompt : pyval;
  timeout : pyval;
}.

(** The SDK client handle, identified by its constructor arguments. *)
Record AsyncAzureOpenAI : Type := {
  api_key : string;
  client_api_version : pyval;
  azure_endpoint : string;
}.

Record AzureOpenAIConnector : Type := {
  base :> Connector;
  api_version : pyval;
  _client : AsyncAzureOpenAI;
  model : pyval;
}.

(** [AzureOpenAIConnector.__init__], after [super().__init__] has filled
    [base]. *)
Definition __init__ (base : Connector) : AzureOpenAIConnector :=
  let api_version := dict_get (optional_params base) "api_version" (PStr "2024-02-01") in
  {| base := base;
     api_version := api_version;
     _client := {| api_key := token base;
                   client_api_version := api_version;
                   azure_endpoint := endpoint base |};
     model := dict_get (optional_params base) "model" (PStr "") |}.

(** ** Running a method: state and exceptions *)

(** A method runs against the connector object it is called on and the
    network; [wire] records the requests handed to the remote endpoint,
    oldest first. *)
Record World : Type := {
  self : AzureOpenAIConnector;
  wire : list (gmap string pyval);
}.

Definition Run (A : Type) : Type := World → World * outcome A.

#[global] Instance Run_ret : MRet Run := λ A a w, (w, Returned a).

#[global] Instance Run_bind : MBind Run := λ A B f m w,
  match m w with
  | (w', Returned a) => f a w'
  | (w', Raised e) => (w', Raised e)
  end.

Definition raise {A} (e : exception) : Run A := λ w, (w, Raised e).

(** Lift the result of a Python operator. *)
Definition op {A} (o : outcome A) : Run A := λ w, (w, o).

(** Read an attribute of [self]. *)
Definition getself {A} (field : AzureOpenAIConnector → A) : Run A :=
  λ w, (w, Returned (field (self w))).

(** [try: body  except BadRequestError as ex: handler ex]: only that
    class is caught, and what the handler raises replaces it. *)
Definition try_except_BadRequestError {A} (body : Run A)
    (handler : string → pyval → Run A) : Run A := λ w,
  match body w with
  | (w', Raised (BadRequestError message body)) => handler message body w'
  | r => r
  end.

(** ** The methods *)

(** [get_response] below is the method as written.  The [rate_limited]
    and [perform_retry] wrappers around it belong to the base module; they
    are its caller. *)

Section Methods.

(** The remote endpoint: what [chat.completions.create] answers for a
    client, the requests already made and the keyword arguments of this
    call.  It either returns a response object or raises. *)
Variable server : AsyncAzureOpenAI → list (gmap string pyval) → gmap string pyval → outcome pyval.

Definition chat_completions_create (client : AsyncAzureOpenAI) (params : gmap string pyval)
    : Run pyval := λ w,
  ({| self := self w; wire := wire w ++ [params] |}, server client (wire w) params).

(** A turn [{"role": role, "content": content}]. *)
Definition turn (role : string) (content : pyval) : pyval :=
  PDict (<["role" := PStr role]> (<["content" := content]> ∅)).

(** [connector_prompt = f"{self.pre_prompt}{prompt}{self.post_prompt}"] *)
Definition connector_prompt (self : AzureOpenAIConnector) (prompt : string) : string :=
  pre_prompt self +:+ prompt +:+ post_prompt self.

Definition openai_request (self : AzureOpenAIConnector) (prompt : string) : list pyval :=
  if truthy (system_prompt self)
  then [turn "system" (system_prompt self);
        turn "user" (PStr (connector_prompt self prompt))]
  else [turn "user" (PStr (connector_prompt self prompt))].

(** [{**self.optional_params, "model": ..., "messages": ..., "timeout": ...}]:
    later entries of a dict display replace earlier ones. *)
Definition new_params (self : AzureOpenAIConnector) (prompt : string) : gmap string pyval :=
  <["timeout" := timeout self]>
    (<["messages" := PList (openai_request self prompt)]>
       (<["model" := model self]> (optional_params self))).

(** [return response.choices[0].message.content] *)
Definition _process_response (response : pyval) : Run pyval :=
  choices ← op (getattr "choices" response);
  choice ← op (getitem_int 0 choices);
  message ← op (getattr "message" choice);
  op (getattr "content" message).

(** The [except BadRequestError as ex] block.  [and] evaluates its right
    operand only when the left one is true; the final bare [raise]
    re-raises [ex]. *)
Definition handle_BadRequestError (message : string) (body : pyval) : Run pyval :=
  let ex := BadRequestError message body in
  has_inner ← (if isinstance_dict body then op (contains "innererror" body) else mret false);
  if (has_inner : bool) then
    innererror ← op (getitem "innererror" body);
    has_code ← op (contains "code" innererror);
    if (has_code : bool) then
      innererror' ← op (getitem "innererror" body);
      code ← op (getitem "code" innererror');
      violation ← op (contains "ResponsibleAIPolicyViolation" code);
      absorb ← (if (violation : bool) then op (contains "message" body) else mret false);
      if (absorb : bool) then op (getitem "message" body) else raise ex
    else raise ex
  else raise ex.

Definition get_response (prompt : string) : Run pyval :=
  me ← getself id;
  let new_params := new_params me prompt in
  try_except_BadRequestError
    (client ← getself _client;
     response ← chat_completions_create client new_params;
     _process_response response)
    handle_BadRequestError.

(** What the remote endpoint answers to this call of [get_response]. *)
Definition answer (prompt : string) (w : World) : outcome pyval :=
  server (_client (self w)) (wire w) (new_params (self w) prompt).

(** The world once the request of this call has gone out. *)
Definition sent (prompt : string) (w : World) : World :=
  {| self := self w; wire := wire w ++ [new_params (self w) prompt] |}.

End Methods.

(** Reading a turn back. *)
Definition role_of (t : pyval) : option pyval :=
  match t with
  | PDict d => d !! "role"
  | _ => None
  end.

Definition content_of (t : pyval) : option pyval :=
  match t with
  | PDict d => d !! "content"
  | _ => None
  end.

Definition is_user_turn (t : pyval) : bool :=
  match role_of t with
  | Some (PStr r) => String.eqb r "user"
  | _ => false
  end.

Definition is_system_turn (t : pyval) : bool :=
  match role_of t with
  | Some (PStr r) => String.eqb r "system"
  | _ => false
  end.

(** A program is silent when it leaves the world as it found it. *)
Definition silent {A} (m : Run A) : Prop := ∀ w, (m w).1 = w.

Definition is_BadRequestError (e : exception) : bool :=
  match e with
  | BadRequestError _ _ => true
  | _ => false
  end.

(** The error bodies the handler is written for and does not absorb:
    every level it subscripts is a mapping and the code is text. *)
Inductive unabsorbed : pyval → Prop :=
  | unabsorbed_not_dict body :
      isinstance_dict body = false → unabsorbed body
  | unabsorbed_no_innererror d :
      d !! "innererror" = None → unabsorbed (PDict d)
  | unabsorbed_no_code d inner :
      d !! "innererror" = Some (PDict inner) →
      inner !! "code" = None → unabsorbed (PDict d)
  | unabsorbed_other_code d inner code :
      d !! "innererror" = Some (PDict inner) →
      inner !! "code" = Some (PStr code) →
      str_contains "ResponsibleAIPolicyViolation" code = false → unabsorbed (PDict d)
  | unabsorbed_no_message d inner code :
      d !! "innererror" = Some (PDict inner) →
      inner !! "code" = Some (PStr code) →
      d !! "message" = None → unabsorbed (PDict d).

(** A connector as [__init__] leaves it, with the requests made so far. *)
Definition constructed (config : Connector) (earlier : list (gmap string pyval)) : World :=
  {| self := __init__ config; wire := earlier |}.

(** The values on which [in] raises [TypeError]: [None], booleans,
    numbers and plain objects. *)
Definition not_iterable (v : pyval) : bool :=
  match v with
  | PNone | PBool _ | PInt _ | PFloat _ | PObj _ => true
  | PStr _ | PList _ | PDict _ => false
  end.

(** ** Concrete connectors, replies and error bodies *)

Module Sample.

Definition judge : Connector :=
  {| token := "secret";
     endpoint := "https://example.openai.azure.com";
     optional_params :=
       <["model" := PStr "gpt-4o"]>
         (<["temperature" := PInt 0]> (<["timeout" := PInt 5]> ∅));
     pre_prompt := "Q: ";
     post_prompt := " A:";
     system_prompt := PStr "You are a careful judge.";
     timeout := PInt 600 |}.

Definition plain : Connector :=
  {| token := "secret";
     endpoint := "https://example.openai.azure.com";
     optional_params := <["model" := PStr "gpt-4o"]> ∅;
     pre_prompt := "";
     post_prompt := "";
     system_prompt := PStr "";
     timeout := PInt 600 |}.

Definition fresh (c : Connector) : World := {| self := __init__ c; wire := [] |}.

(** An endpoint that answers every call the same way. *)
Definition answering (o : outcome pyval)
    : AsyncAzureOpenAI → list (gmap string pyval) → gmap string pyval → outcome pyval :=
  λ _ _ _, o.

Definition choice (content : pyval) : pyval :=
  PObj (<["index" := PInt 0]>
          (<["message" := PObj (<["role" := PStr "assistant"]> (<["content" := content]> ∅))]> ∅)).

Definition completion (choices : list pyval) : pyval :=
  PObj (<["id" := PStr "chatcmpl-1"]> (<["choices" := PList choices]> ∅)).

Definition inner_of (code : pyval) : gmap string pyval := <["code" := code]> ∅.

Definition body_of (innererror message : pyval) : gmap string pyval :=
  <["innererror" := innererror]> (<["message" := message]> ∅).

(** [{"innererror": {"code": "ResponsibleAIPolicyViolation"}, "message": "rejected"}] *)
Definition rejected : gmap string pyval :=
  body_of (PDict (inner_of (PStr "ResponsibleAIPolicyViolation"))) (PStr "rejected").

(** [{"innererror": {"code": None}, "message": "x"}] *)
Definition null_code : gmap string pyval :=
  body_of (PDict (inner_of PNone)) (PStr "x").

(** [{"innererror": None, "message": "x"}] *)
Definition null_innererror : gmap string pyval := body_of PNone (PStr "x").

(** [{"innererror": {"code": "ResponsibleAIPolicyViolation"}, "message": None}] *)
Definition null_message : gmap string pyval :=
  body_of (PDict (inner_of (PStr "ResponsibleAIPolicyViolation"))) PNone.

(** [{"innererror": {"code": "OtherCode"}, "message": "x"}] *)
Definition other_code : gmap string pyval :=
  body_of (PDict (inner_of (PStr "OtherCode"))) (PStr "x").

(** [{"innererror": {"code": ["ResponsibleAIPolicyViolation"]}, "message": "listed"}] *)
Definition listed_code : gmap string pyval :=
  body_of (PDict (inner_of (PList [PStr "ResponsibleAIPolicyViolation"]))) (PStr "listed").

(** A connector configured with nothing but the prompts' defaults. *)
Definition bare : Connector :=
  {| token := "secret";
     endpoint := "https://example.openai.azure.com";
     optional_params := ∅;
     pre_prompt := "";
     post_prompt := "";
     system_prompt := PStr "";
     timeout := PInt 600 |}.

(** A connector whose operator pins the API version. *)
Definition pinned : Connector :=
  {| token := "secret";
     endpoint := "https://example.openai.azure.com";
     optional_params :=
       <["api_version" := PStr "2024-10-21"]> (<["model" := PStr "gpt-4o"]> ∅);
     pre_prompt := "";
     post_prompt := "";
     system_prompt := PNone;
     timeout := PInt 30 |}.

End Sample.

(** * Properties *)

(** ** Substring search *)

Lemma starts_with_app (n h : string) :
  starts_with n h = true ↔ ∃ b, h = n +:+ b.
Proof.
  revert h. induction n as [|c n IH]; intros h.
  - split; [intros _; by exists h | done].
  - destruct h as [|c' h]; cbn [starts_with].
    + split; [done | intros [b Hb]; discriminate].
    + rewrite andb_true_iff, Ascii.eqb_eq, IH. split.
      * intros [-> [b ->]]. by exists b.
      * intros [b Hb]. injection Hb as -> ->. split; [done | by exists b].
Qed.

(** [str_contains] is Python's substring test: the needle occurs
    somewhere in the haystack. *)
Lemma str_contains_spec (n h : string) :
  str_contains n h = true ↔ ∃ a b, h = a +:+ n +:+ b.
Proof.
  induction h as [|c h IH].
  - simpl. rewrite orb_false_r, starts_with_app. split.
    + intros [b Hb]. by exists "", b.
    + intros [a [b Hab]]. destruct a; [by exists b | discriminate].
  - cbn [str_contains]. rewrite orb_true_iff, starts_with_app, IH. split.
    + intros [[b Hb] | [a [b Hab]]].
      * by exists "", b.
      * exists (String c a), b. simpl. by rewrite Hab.
    + intros [a [b Hab]]. destruct a as [|c' a].
      * left. by exists b.
      * right. exists a, b. simpl in Hab. by inversion Hab.
Qed.

(** ** Programs that leave the world alone *)

Lemma silent_ret {A} (a : A) : silent (mret a).
Proof. done. Qed.

Lemma silent_raise {A} (e : exception) : silent (@raise A e).
Proof. done. Qed.

Lemma silent_op {A} (o : outcome A) : silent (op o).
Proof. done. Qed.

Lemma silent_bind {A B} (m : Run A) (f : A → Run B) :
  silent m → (∀ a, silent (f a)) → silent (m ≫= f).
Proof.
  intros Hm Hf w. unfold mbind, Run_bind. specialize (Hm w).
  destruct (m w) as [w' [a|e]]; simpl in *; subst; [apply Hf | done].
Qed.

Lemma silent_if {A} (b : bool) (m1 m2 : Run A) :
  silent m1 → silent m2 → silent (if b then m1 else m2).
Proof. intros H1 H2. destruct b; assumption. Qed.

Create HintDb silent.
#[global] Hint Resolve silent_ret silent_raise silent_op silent_if : silent.
#[global] Hint Extern 2 (silent (_ ≫= _)) => apply silent_bind; [| intros ?] : silent.

Lemma silent_process_response (response : pyval) : silent (_process_response response).
Proof. unfold _process_response. auto 10 with silent. Qed.

Lemma silent_handle_BadRequestError (message : string) (body : pyval) :
  silent (handle_BadRequestError message body).
Proof. unfold handle_BadRequestError. auto 20 with silent. Qed.

(** The result of a silent program does not depend on the world either
    when it is built from operators only. *)
Lemma process_response_result (response : pyval) (w : World) :
  (_process_response response w).2 =
  match getattr "choices" response with
  | Raised e => Raised e
  | Returned choices =>
      match getitem_int 0 choices with
      | Raised e => Raised e
      | Returned choice =>
          match getattr "message" choice with
          | Raised e => Raised e
          | Returned message => getattr "content" message
          end
      end
  end.
Proof.
  unfold _process_response, mbind, Run_bind, op.
  destruct (getattr "choices" response) as [choices|]; [|done].
  destruct (getitem_int 0 choices) as [choice|]; [|done].
  by destruct (getattr "message" choice).
Qed.

(** Extraction fails only with the built-in errors of attribute access
    and subscription, never with the error class the handler catches. *)
Lemma getattr_raises (name : string) (o : pyval) (e : exception) :
  getattr name o = Raised e → e = AttributeError name.
Proof.
  destruct o as [| | | | | | |attrs]; simpl; try congruence.
  destruct (attrs !! name); congruence.
Qed.

Lemma getitem_int_raises (i : Z) (c : pyval) (e : exception) :
  getitem_int i c = Raised e → is_BadRequestError e = false.
Proof.
  destruct c as [| | | |s|l| |]; simpl; try (intros [= <-]; done).
  - destruct (list_index i (chars s)); intros [= <-]; done.
  - destruct (list_index i l); intros [= <-]; done.
Qed.

Lemma process_response_raises (response : pyval) (w : World) (e : exception) :
  (_process_response response w).2 = Raised e → is_BadRequestError e = false.
Proof.
  rewrite process_response_result.
  destruct (getattr "choices" response) as [choices|e1] eqn:E1;
    [|intros [= <-]; by rewrite (getattr_raises _ _ _ E1)].
  destruct (getitem_int 0 choices) as [choice|e2] eqn:E2;
    [|intros [= <-]; by apply getitem_int_raises in E2].
  destruct (getattr "message" choice) as [message|e3] eqn:E3;
    [|intros [= <-]; by rewrite (getattr_raises _ _ _ E3)].
  intros E4. by rewrite (getattr_raises _ _ _ E4).
Qed.

(** ** One call of [get_response] *)

Section Call.

Variable server : AsyncAzureOpenAI → list (gmap string pyval) → gmap string pyval → outcome pyval.
Variable prompt : string.
Variable w : World.

Lemma get_response_eq :
  get_response server prompt w =
  match answer server prompt w with
  | Returned response => _process_response response (sent prompt w)
  | Raised (BadRequestError message body) =>
      handle_BadRequestError message body (sent prompt w)
  | Raised e => (sent prompt w, Raised e)
  end.
Proof.
  unfold get_response, try_except_BadRequestError, mbind, Run_bind, getself,
    chat_completions_create, answer, sent, id.
  destruct (server _ _ _) as [response|e]; simpl.
  - destruct (_process_response response _) as [w' [a|e]] eqn:E; [done|].
    assert (is_BadRequestError e = false) as He
      by (eapply process_response_raises; by rewrite E).
    by destruct e.
  - by destruct e.
Qed.

Lemma get_response_world : (get_response server prompt w).1 = sent prompt w.
Proof.
  rewrite get_response_eq. destruct (answer server prompt w) as [response|[]]; try done.
  - apply silent_process_response.
  - apply silent_handle_BadRequestError.
Qed.

End Call.

(** ** The handler *)

Ltac run_handler :=
  unfold handle_BadRequestError, mbind, Run_bind, op, raise, mret, Run_ret,
    contains, getitem, isinstance_dict.

Lemma handle_absorbs (message : string) (d inner : gmap string pyval)
    (code : string) (text : pyval) (w : World) :
  d !! "innererror" = Some (PDict inner) →
  inner !! "code" = Some (PStr code) →
  str_contains "ResponsibleAIPolicyViolation" code = true →
  d !! "message" = Some text →
  handle_BadRequestError message (PDict d) w = (w, Returned text).
Proof.
  intros Hinner Hcode Hsub Htext. run_handler.
  rewrite Hinner. cbn. rewrite Hcode. cbn. rewrite Hsub, Htext. done.
Qed.

Lemma handle_reraises (message : string) (body : pyval) (w : World) :
  unabsorbed body →
  handle_BadRequestError message body w = (w, Raised (BadRequestError message body)).
Proof.
  intros Hun. inversion Hun as
    [b Hb | d Hd | d inner Hinner Hcode | d inner code Hinner Hcode Hsub
    | d inner code Hinner Hcode Htext]; subst; run_handler.
  - by destruct body.
  - by rewrite Hd.
  - rewrite Hinner. cbn. by rewrite Hcode.
  - rewrite Hinner. cbn. rewrite Hcode. cbn. by rewrite Hsub.
  - rewrite Hinner. cbn. rewrite Hcode. cbn. rewrite Htext.
    by destruct (str_contains _ code).
Qed.

(** X15.  Errors of any other class pass through [get_response]
    untouched. *)
Lemma get_response_propagates_other server prompt w (e : exception) :
  answer server prompt w = Raised e →
  is_BadRequestError e = false →
  (get_response server prompt w).2 = Raised e.
Proof. intros Ha He. rewrite get_response_eq, Ha. by destruct e. Qed.

(** X14.  A bad request whose body has the expected types and does
    not match the content-filter shape is re-raised as it came. *)
Lemma get_response_reraises_unabsorbed server prompt w (message : string) (body : pyval) :
  answer server prompt w = Raised (BadRequestError message body) →
  unabsorbed body →
  (get_response server prompt w).2 = Raised (BadRequestError message body).
Proof. intros Ha Hun. by rewrite get_response_eq, Ha, handle_reraises. Qed.

(** ** Turns *)

Lemma role_of_turn (role : string) (content : pyval) :
  role_of (turn role content) = Some (PStr role).
Proof. apply lookup_insert_eq. Qed.

Lemma content_of_turn (role : string) (content : pyval) :
  content_of (turn role content) = Some content.
Proof.
  unfold content_of, turn. rewrite lookup_insert_ne by done. apply lookup_insert_eq.
Qed.

Lemma new_params_messages (c : AzureOpenAIConnector) (prompt : string) :
  new_params c prompt !! "messages" = Some (PList (openai_request c prompt)).
Proof.
  unfold new_params. rewrite lookup_insert_ne by done. apply lookup_insert_eq.
Qed.

(** * The claims *)

Section Claims.

Variable server : AsyncAzureOpenAI → list (gmap string pyval) → gmap string pyval → outcome pyval.
Variable prompt : string.
Variable w : World.

(** C1.  When the remote call raises a [BadRequestError] whose body is a
    mapping with an ['innererror'] entry that has a ['code'] field whose
    text contains ['ResponsibleAIPolicyViolation'], and the body also has
    a ['message'] field, [get_response] returns the value of that
    ['message'] field and does not raise. *)
Theorem get_response_absorbs_policy_violation
    (message : string) (body inner : gmap string pyval)
    (before after : string) (text : pyval) :
  answer server prompt w = Raised (BadRequestError message (PDict body)) →
  body !! "innererror" = Some (PDict inner) →
  inner !! "code" = Some (PStr (before +:+ "ResponsibleAIPolicyViolation" +:+ after)) →
  body !! "message" = Some text →
  (get_response server prompt w).2 = Returned text.
Proof.
  intros Ha Hinner Hcode Htext.
  assert (str_contains "ResponsibleAIPolicyViolation"
            (before +:+ "ResponsibleAIPolicyViolation" +:+ after) = true) as Hsub
    by (apply str_contains_spec; by exists before, after).
  rewrite get_response_eq, Ha.
  by rewrite (handle_absorbs _ _ _ _ _ _ Hinner Hcode Hsub Htext).
Qed.

(** C3.  For every prompt [p], the empty one included, and every
    configured [pre_prompt] and [post_prompt], the request sent by
    [get_response] has exactly one user turn and its content is
    [pre_prompt + p + post_prompt]. *)
Theorem get_response_user_turn_content :
  ∃ (request : gmap string pyval) (messages : list pyval),
    wire (get_response server prompt w).1 = (wire w ++ [request])%list ∧
    request !! "messages" = Some (PList messages) ∧
    content_of <$> List.filter is_user_turn messages =
      [Some (PStr (pre_prompt (self w) +:+ prompt +:+ post_prompt (self w)))].
Proof.
  exists (new_params (self w) prompt), (openai_request (self w) prompt).
  rewrite get_response_world. split; [done|]. split; [apply new_params_messages|].
  unfold openai_request, connector_prompt.
  destruct (truthy (system_prompt (self w))); cbn [List.filter];
    unfold is_user_turn; rewrite !role_of_turn; cbn [String.eqb Ascii.eqb Bool.eqb];
    cbn [fmap list_fmap]; by rewrite content_of_turn.
Qed.

(** C4.  If a system prompt is configured (the source's test: it is
    truthy), the turn sequence sent has length 2: first a turn of role
    ['system'] whose content is the configured system prompt, then a turn
    of role ['user'] whose content is the wrapped prompt.  Otherwise it
    has length 1 and holds that user turn only. *)
Theorem get_response_turn_sequence :
  ∃ (request : gmap string pyval) (messages : list pyval),
    wire (get_response server prompt w).1 = (wire w ++ [request])%list ∧
    request !! "messages" = Some (PList messages) ∧
    (truthy (system_prompt (self w)) = true →
       ∃ first second : pyval,
         messages = [first; second] ∧ length messages = 2%nat ∧
         role_of first = Some (PStr "system") ∧
         content_of first = Some (system_prompt (self w)) ∧
         role_of second = Some (PStr "user") ∧
         content_of second
           = Some (PStr (pre_prompt (self w) +:+ prompt +:+ post_prompt (self w)))) ∧
    (truthy (system_prompt (self w)) = false →
       ∃ only : pyval,
         messages = [only] ∧ length messages = 1%nat ∧
         role_of only = Some (PStr "user") ∧
         content_of only
           = Some (PStr (pre_prompt (self w) +:+ prompt +:+ post_prompt (self w)))).
Proof.
  exists (new_params (self w) prompt), (openai_request (self w) prompt).
  rewrite get_response_world. split; [done|]. split; [apply new_params_messages|].
  unfold openai_request, connector_prompt. split; intros ->.
  - eexists _, _. split; [reflexivity|]. split; [done|].
    by rewrite !role_of_turn, !content_of_turn.
  - eexists. split; [reflexivity|]. split; [done|].
    by rewrite role_of_turn, content_of_turn.
Qed.

(** C5.  Whatever the optional parameters hold, keys ['model'],
    ['messages'] and ['timeout'] included, the payload sent maps
    ['model'] to the connector's model, ['messages'] to the turn
    sequence of this call and ['timeout'] to the connector's timeout, and
    every other key is looked up as in the optional parameters. *)
Theorem get_response_payload_explicit_fields_win :
  ∃ request : gmap string pyval,
    wire (get_response server prompt w).1 = (wire w ++ [request])%list ∧
    request !! "model" = Some (model (self w)) ∧
    request !! "messages" = Some (PList (openai_request (self w) prompt)) ∧
    request !! "timeout" = Some (timeout (self w)) ∧
    ∀ key : string,
      key ≠ "model" → key ≠ "messages" → key ≠ "timeout" →
      request !! key = optional_params (self w) !! key.
Proof.
  exists (new_params (self w) prompt). rewrite get_response_world.
  split; [done|]. unfold new_params. repeat split.
  - rewrite 2!lookup_insert_ne by done. apply lookup_insert_eq.
  - rewrite lookup_insert_ne by done. apply lookup_insert_eq.
  - apply lookup_insert_eq.
  - intros key Hmodel Hmessages Htimeout. by rewrite 3!lookup_insert_ne.
Qed.

(** C6.  When the remote call returns a response whose [choices] list
    starts with [c0], [get_response] returns [c0.message.content]; the
    remaining choices and every other field of the response are free. *)
Theorem get_response_returns_first_choice_content
    (response c0 message content : pyval) (others : list pyval) :
  answer server prompt w = Returned response →
  getattr "choices" response = Returned (PList (c0 :: others)) →
  getattr "message" c0 = Returned message →
  getattr "content" message = Returned content →
  (get_response server prompt w).2 = Returned content.
Proof.
  intros Ha Hchoices Hmessage Hcontent.
  rewrite get_response_eq, Ha, process_response_result, Hchoices.
  change (getitem_int 0 (PList (c0 :: others))) with (Returned c0).
  cbv beta iota. by rewrite Hmessage.
Qed.

(** C8.  When the remote call returns a response whose [choices] list is
    empty, nothing is checked beforehand: subscripting the list fails
    with [IndexError], which leaves [get_response]; no value is
    returned. *)
Theorem get_response_empty_choices_raises (response : pyval) :
  answer server prompt w = Returned response →
  getattr "choices" response = Returned (PList []) →
  (get_response server prompt w).2 = Raised IndexError.
Proof.
  intros Ha Hchoices.
  by rewrite get_response_eq, Ha, process_response_result, Hchoices.
Qed.

(** C9.  Whether [get_response] returns or raises, the connector object
    is the same afterwards: client handle, API version, model, optional
    parameters, prompts and timeout are all unchanged. *)
Theorem get_response_preserves_connector :
  self (get_response server prompt w).1 = self w.
Proof. by rewrite get_response_world. Qed.

(** C10.  With the empty string as system prompt, the turn sequence sent
    has length 1 and no system turn. *)
Theorem get_response_empty_system_prompt :
  system_prompt (self w) = PStr "" →
  ∃ (request : gmap string pyval) (messages : list pyval),
    wire (get_response server prompt w).1 = (wire w ++ [request])%list ∧
    request !! "messages" = Some (PList messages) ∧
    length messages = 1%nat ∧
    List.filter is_system_turn messages = [].
Proof.
  intros Hempty.
  exists (new_params (self w) prompt), (openai_request (self w) prompt).
  rewrite get_response_world. split; [done|]. split; [apply new_params_messages|].
  unfold openai_request. rewrite Hempty. cbn [truthy String.eqb negb].
  split; [done|]. cbn [List.filter]. unfold is_system_turn. by rewrite role_of_turn.
Qed.

End Claims.

(** ** The claims on concrete calls *)

Import Sample.

Lemma get_response_absorbs_policy_violation_witness :
  (get_response
     (answering (Raised (BadRequestError "Error code: 400" (PDict rejected))))
     "hello" (fresh judge)).2 = Returned (PStr "rejected").
Proof.
  apply (get_response_absorbs_policy_violation _ _ _ "Error code: 400" rejected
           (inner_of (PStr "ResponsibleAIPolicyViolation")) "" "");
    vm_compute; reflexivity.
Defined.

Lemma get_response_turn_sequence_witness :
  ∃ (request : gmap string pyval) (first second : pyval),
    wire (get_response (answering (Raised TypeError)) "hello" (fresh judge)).1 = [request] ∧
    request !! "messages" = Some (PList [first; second]) ∧
    role_of first = Some (PStr "system") ∧
    content_of first = Some (PStr "You are a careful judge.") ∧
    role_of second = Some (PStr "user") ∧
    content_of second = Some (PStr "Q: hello A:").
Proof.
  destruct (get_response_turn_sequence (answering (Raised TypeError)) "hello" (fresh judge))
    as (request & messages & Hwire & Hmessages & Hsystem & _).
  destruct (Hsystem eq_refl)
    as (first & second & -> & _ & Hrole1 & Hcontent1 & Hrole2 & Hcontent2).
  exists request, first, second. split; [exact Hwire|]. split; [exact Hmessages|].
  split; [exact Hrole1|]. split; [exact Hcontent1|]. split; [exact Hrole2|].
  exact Hcontent2.
Defined.

Lemma get_response_payload_explicit_fields_win_witness :
  ∃ request : gmap string pyval,
    wire (get_response (answering (Raised TypeError)) "hello" (fresh judge)).1 = [request] ∧
    request !! "timeout" = Some (PInt 600) ∧
    request !! "temperature" = Some (PInt 0).
Proof.
  destruct (get_response_payload_explicit_fields_win
              (answering (Raised TypeError)) "hello" (fresh judge))
    as (request & Hwire & _ & _ & Htimeout & Hother).
  exists request. split; [exact Hwire|]. split; [exact Htimeout|].
  rewrite Hother by discriminate. vm_compute. reflexivity.
Defined.

Lemma get_response_returns_first_choice_content_witness :
  (get_response
     (answering (Returned (completion [choice (PStr "4"); choice (PStr "four")])))
     "2+2?" (fresh judge)).2 = Returned (PStr "4").
Proof.
  apply (get_response_returns_first_choice_content _ _ _
           (completion [choice (PStr "4"); choice (PStr "four")])
           (choice (PStr "4"))
           (PObj (<["role" := PStr "assistant"]> (<["content" := PStr "4"]> ∅)))
           (PStr "4") [choice (PStr "four")]);
    vm_compute; reflexivity.
Defined.

Lemma get_response_empty_choices_raises_witness :
  (get_response (answering (Returned (completion []))) "2+2?" (fresh judge)).2
  = Raised IndexError.
Proof.
  apply (get_response_empty_choices_raises _ _ _ (completion []));
    vm_compute; reflexivity.
Defined.

Lemma get_response_empty_system_prompt_witness :
  ∃ (request : gmap string pyval) (messages : list pyval),
    wire (get_response (answering (Raised TypeError)) "hello" (fresh plain)).1 = [request] ∧
    request !! "messages" = Some (PList messages) ∧
    length messages = 1%nat ∧
    List.filter is_system_turn messages = [].
Proof.
  apply (get_response_empty_system_prompt (answering (Raised TypeError)) "hello" (fresh plain)).
  reflexivity.
Defined.

(** C2, on the failing input.  The endpoint raises a [BadRequestError]
    with body [{"innererror": {"code": None}, "message": "x"}], which
    does not have the absorbed shape.  The claim has the same error
    re-raised; the handler's substring test on [None] raises [TypeError]
    first, so [get_response] raises [TypeError] and the original error is
    not the one that leaves it.  The same happens when ['innererror']
    itself is [None]. *)
Theorem get_response_null_code_raises_TypeError (prompt : string) (w : World) :
  (get_response
     (answering (Raised (BadRequestError "Error code: 400" (PDict null_code))))
     prompt w).2 = Raised TypeError
  ∧ (get_response
       (answering (Raised (BadRequestError "Error code: 400" (PDict null_innererror))))
       prompt w).2 = Raised TypeError
  ∧ @Raised pyval TypeError
      ≠ Raised (BadRequestError "Error code: 400" (PDict null_code)).
Proof.
  rewrite !get_response_eq. unfold answer, answering. split; [|split]; done.
Qed.

(** C7, on the failing inputs.  The claim has every normal return be a
    string, as the [-> str] annotations and docstrings promise.  A
    completion whose first choice carries [content = None] makes
    [get_response] return [None], and so does an absorbed policy rejection
    whose ['message'] is [None]: the value is handed back unchecked. *)
Theorem get_response_returns_None (prompt : string) (w : World) :
  (get_response (answering (Returned (completion [choice PNone]))) prompt w).2
    = Returned PNone
  ∧ (get_response
       (answering (Raised (BadRequestError "Error code: 400" (PDict null_message))))
       prompt w).2 = Returned PNone
  ∧ is_str PNone = false.
Proof.
  rewrite !get_response_eq. unfold answer, answering.
  split; [|split]; [by rewrite process_response_result | done | done].
Qed.

(** * Further properties of the handler *)

Lemma contains_dict (key : string) (d : gmap string pyval) :
  contains key (PDict d) = Returned (bool_decide (is_Some (d !! key))).
Proof. done. Qed.

Lemma getitem_dict (key : string) (d : gmap string pyval) :
  getitem key (PDict d) =
  match d !! key with
  | Some v => Returned v
  | None => Raised (KeyError (PStr key))
  end.
Proof. done. Qed.

(** The handler's result, read off its nested tests. *)
Lemma handle_result (message : string) (body : pyval) (w : World) :
  (handle_BadRequestError message body w).2 =
  match body with
  | PDict d =>
      match d !! "innererror" with
      | None => Raised (BadRequestError message body)
      | Some innererror =>
          match contains "code" innererror with
          | Raised e => Raised e
          | Returned false => Raised (BadRequestError message body)
          | Returned true =>
              match getitem "code" innererror with
              | Raised e => Raised e
              | Returned code =>
                  match contains "ResponsibleAIPolicyViolation" code with
                  | Raised e => Raised e
                  | Returned false => Raised (BadRequestError message body)
                  | Returned true =>
                      match d !! "message" with
                      | Some text => Returned text
                      | None => Raised (BadRequestError message body)
                      end
                  end
              end
          end
      end
  | _ => Raised (BadRequestError message body)
  end.
Proof.
  destruct body as [| | | | | |d|]; try done.
  unfold handle_BadRequestError, mbind, Run_bind, op, raise, mret, Run_ret.
  cbn [isinstance_dict]. rewrite !contains_dict, !getitem_dict.
  destruct (d !! "innererror") as [innererror|]; [|done].
  rewrite bool_decide_true by (by eexists). cbn [snd fst].
  destruct (contains "code" innererror) as [[]|]; [|done..].
  destruct (getitem "code" innererror) as [code|]; [|done].
  destruct (contains "ResponsibleAIPolicyViolation" code) as [[]|]; [|done..].
  by destruct (d !! "message").
Qed.

Section Handler.

Variable server : AsyncAzureOpenAI → list (gmap string pyval) → gmap string pyval → outcome pyval.
Variable prompt : string.
Variable w : World.
Variable message : string.
Variable body : pyval.
Hypothesis bad_request : answer server prompt w = Raised (BadRequestError message body).

Lemma get_response_handles :
  (get_response server prompt w).2 =
  (handle_BadRequestError message body (sent prompt w)).2.
Proof using bad_request. by rewrite get_response_eq, bad_request. Qed.

(** X1.  When the remote call raises a [BadRequestError],
    [get_response] returns a value [v] exactly when the body is a dict
    whose ['innererror'] is a dict with a ['code'] entry in which
    ['ResponsibleAIPolicyViolation'] is found by [in] (a substring of a
    string, an element of a list, a key of a dict), and whose
    ['message'] is [v]. *)
Theorem get_response_absorbs_iff (v : pyval) :
  (get_response server prompt w).2 = Returned v ↔
  ∃ (d inner : gmap string pyval) (code : pyval),
    body = PDict d ∧
    d !! "innererror" = Some (PDict inner) ∧
    inner !! "code" = Some code ∧
    contains "ResponsibleAIPolicyViolation" code = Returned true ∧
    d !! "message" = Some v.
Proof using bad_request.
  rewrite get_response_handles, handle_result. split.
  - destruct body as [| | | | | |d|]; try done.
    destruct (d !! "innererror") as [innererror|] eqn:Hinner; [|done].
    destruct innererror as [| | | |s|l|inner|]; try done.
    + cbn [contains getitem]. by destruct (str_contains "code" s).
    + cbn [contains getitem]. by destruct (existsb (str_eq_val "code") l).
    + rewrite contains_dict, getitem_dict.
      destruct (inner !! "code") as [code|] eqn:Hcode; [|done].
      rewrite bool_decide_true by (by eexists).
      destruct (contains _ code) as [[]|] eqn:Hmarker; try done.
      destruct (d !! "message") as [text|] eqn:Htext; [|done].
      intros [= ->]. by exists d, inner, code.
  - intros (d & inner & code & -> & Hinner & Hcode & Hmarker & Htext).
    rewrite Hinner, contains_dict, getitem_dict, Hcode.
    rewrite bool_decide_true by (by eexists). by rewrite Hmarker, Htext.
Qed.

(** X2.  When the remote call raises a [BadRequestError],
    [get_response] ends in one of three ways only: it returns the body's
    ['message'], it re-raises that same error, or it raises [TypeError].
    Every subscription is guarded by a membership test, so no [KeyError]
    escapes. *)
Theorem get_response_bad_request_outcomes :
  (∃ v : pyval, getitem "message" body = Returned v ∧
                (get_response server prompt w).2 = Returned v)
  ∨ (get_response server prompt w).2 = Raised (BadRequestError message body)
  ∨ (get_response server prompt w).2 = Raised TypeError.
Proof using bad_request.
  rewrite get_response_handles, handle_result.
  destruct body as [| | | | | |d|]; try (right; left; done).
  destruct (d !! "innererror") as [innererror|]; [|by right; left].
  destruct innererror as [| | | |s|l|inner|]; try (right; right; done).
  - cbn [contains getitem]. destruct (str_contains "code" s); auto.
  - cbn [contains getitem]. destruct (existsb (str_eq_val "code") l); auto.
  - rewrite !contains_dict, !getitem_dict.
    destruct (inner !! "code") as [code|]; [|by right; left].
    rewrite bool_decide_true by (by eexists).
    destruct (contains _ code) as [[]|e] eqn:Hmarker.
    + destruct (d !! "message") as [text|]; [|by right; left].
      left. by exists text.
    + by right; left.
    + right; right. destruct code; inversion Hmarker; done.
Qed.

(** X3.  When the remote call raises a [BadRequestError], the error
    is replaced by a [TypeError] exactly when the body is a dict with an
    ['innererror'] entry that is [None], a boolean, a number or an
    object, or a string or list in which ['code'] is found, or a dict
    whose ['code'] is [None], a boolean, a number or an object. *)
Theorem get_response_masks_with_TypeError_iff :
  (get_response server prompt w).2 = Raised TypeError ↔
  ∃ (d : gmap string pyval) (innererror : pyval),
    body = PDict d ∧
    d !! "innererror" = Some innererror ∧
    (not_iterable innererror = true
     ∨ (∃ s, innererror = PStr s ∧ str_contains "code" s = true)
     ∨ (∃ l, innererror = PList l ∧ existsb (str_eq_val "code") l = true)
     ∨ (∃ inner code, innererror = PDict inner ∧
                      inner !! "code" = Some code ∧ not_iterable code = true)).
Proof using bad_request.
  rewrite get_response_handles, handle_result. split.
  - destruct body as [| | | | | |d|]; try done.
    destruct (d !! "innererror") as [innererror|] eqn:Hinner; [|done].
    intros Hres. exists d, innererror. split; [done|]. split; [done|].
    destruct innererror as [| | | |s|l|inner|]; try (by left).
    + right; left. exists s. split; [done|].
      cbn [contains getitem] in Hres. by destruct (str_contains "code" s).
    + right; right; left. exists l. split; [done|].
      cbn [contains getitem] in Hres. by destruct (existsb (str_eq_val "code") l).
    + right; right; right. rewrite contains_dict, getitem_dict in Hres.
      destruct (inner !! "code") as [code|] eqn:Hcode; [|done].
      rewrite bool_decide_true in Hres by (by eexists).
      exists inner, code. split; [done|]. split; [done|].
      destruct code as [| | | |s|l|dd|]; try done; cbn [contains] in Hres.
      * destruct (str_contains _ s); [|done]. by destruct (d !! "message").
      * destruct (existsb _ l); [|done]. by destruct (d !! "message").
      * destruct (bool_decide _); [|done]. by destruct (d !! "message").
  - intros (d & innererror & -> & Hinner & Hcases). rewrite Hinner.
    destruct Hcases as [Hscalar | [(s & -> & Hs) | [(l & -> & Hl) | (inner & code & -> & Hcode & Hscalar)]]].
    + by destruct innererror.
    + cbn [contains getitem]. by rewrite Hs.
    + cbn [contains getitem]. by rewrite Hl.
    + rewrite contains_dict, getitem_dict, Hcode.
      rewrite bool_decide_true by (by eexists). by destruct code.
Qed.

End Handler.

(** * Further properties of response extraction *)

Section Extraction.

Variable server : AsyncAzureOpenAI → list (gmap string pyval) → gmap string pyval → outcome pyval.
Variable prompt : string.
Variable w : World.
Variable response : pyval.
Hypothesis answered : answer server prompt w = Returned response.

Lemma get_response_extracts :
  (get_response server prompt w).2 = (_process_response response (sent prompt w)).2.
Proof using answered. by rewrite get_response_eq, answered. Qed.

(** X4.  When the remote call returns a response, [get_response]
    returns a value [v] exactly when [response.choices] is a list with a
    first element [c0] and [c0.message.content] is [v].  A string, dict
    or missing [choices] never yields a value. *)
Theorem get_response_returns_iff (v : pyval) :
  (get_response server prompt w).2 = Returned v ↔
  ∃ (c0 message : pyval) (others : list pyval),
    getattr "choices" response = Returned (PList (c0 :: others)) ∧
    getattr "message" c0 = Returned message ∧
    getattr "content" message = Returned v.
Proof using answered.
  rewrite get_response_extracts, process_response_result. split.
  - destruct (getattr "choices" response) as [choices|]; [|done].
    destruct choices as [| | | |s|l|d|]; try done.
    + cbn [getitem_int]. by destruct (list_index 0 (chars s)).
    + destruct l as [|c0 others]; [done|].
      change (getitem_int 0 (PList (c0 :: others))) with (Returned c0). cbv beta iota.
      destruct (getattr "message" c0) as [message|] eqn:Hmessage; [|done].
      intros Hcontent. by exists c0, message, others.
  - intros (c0 & message & others & -> & Hmessage & Hcontent).
    change (getitem_int 0 (PList (c0 :: others))) with (Returned c0). cbv beta iota.
    by rewrite Hmessage.
Qed.

(** X5.  When the remote call returns a response and extraction
    fails, the error that leaves [get_response] is the [AttributeError]
    of a missing [choices], [message] or [content], the [IndexError] of
    an empty sequence, the [TypeError] of a value that cannot be
    subscripted, or the [KeyError] of a dict without key [0]; the
    handler for bad requests never sees it. *)
Theorem get_response_extraction_errors (e : exception) :
  (get_response server prompt w).2 = Raised e →
  e = AttributeError "choices" ∨ e = AttributeError "message"
  ∨ e = AttributeError "content" ∨ e = IndexError ∨ e = TypeError
  ∨ e = KeyError (PInt 0).
Proof using answered.
  rewrite get_response_extracts, process_response_result.
  destruct (getattr "choices" response) as [choices|e1] eqn:Hchoices.
  - destruct (getitem_int 0 choices) as [choice|e2] eqn:Hchoice.
    + destruct (getattr "message" choice) as [message|e3] eqn:Hmessage.
      * intros ->%getattr_raises. auto.
      * intros [= <-]. apply getattr_raises in Hmessage. auto.
    + intros [= <-]. destruct choices as [| | | |s|l|d|]; cbn [getitem_int] in Hchoice;
        try (injection Hchoice as <-; auto 10).
      * destruct (list_index 0 (chars s)); [done|]. injection Hchoice as <-. auto 10.
      * destruct (list_index 0 l); [done|]. injection Hchoice as <-. auto 10.
  - intros [= <-]. apply getattr_raises in Hchoices. auto.
Qed.

(** X6.  When the remote call returns something that is not an
    object with a [choices] attribute ([None], a decoded dict, a string),
    [get_response] raises [AttributeError] for [choices]. *)
Theorem get_response_without_choices_raises :
  (∀ attrs : gmap string pyval, response = PObj attrs → attrs !! "choices" = None) →
  (get_response server prompt w).2 = Raised (AttributeError "choices").
Proof using answered.
  intros Hmissing. rewrite get_response_extracts, process_response_result.
  destruct response as [| | | | | | |attrs]; try done.
  cbn [getattr]. by rewrite (Hmissing attrs).
Qed.

End Extraction.

(** * Further properties of the request *)

Lemma string_length_app (a b : string) :
  String.length (a +:+ b) = (String.length a + String.length b)%nat.
Proof.
  induction a as [|c a IH]; [done|].
  change (String c a +:+ b) with (String c (a +:+ b)). cbn [String.length]. by rewrite IH.
Qed.

Lemma string_app_nil_r (a : string) : a +:+ "" = a.
Proof.
  induction a as [|c a IH]; [done|].
  change (String c a +:+ "") with (String c (a +:+ "")). by rewrite IH.
Qed.

Lemma string_app_inv_tail (x y b : string) : x +:+ b = y +:+ b → x = y.
Proof.
  revert y. induction x as [|c x IH]; intros [|c' y] Heq.
  - done.
  - apply (f_equal String.length) in Heq.
    change ("" +:+ b) with b in Heq.
    change (String c' y +:+ b) with (String c' (y +:+ b)) in Heq.
    cbn [String.length] in Heq. rewrite string_length_app in Heq. lia.
  - apply (f_equal String.length) in Heq.
    change ("" +:+ b) with b in Heq.
    change (String c x +:+ b) with (String c (x +:+ b)) in Heq.
    cbn [String.length] in Heq. rewrite string_length_app in Heq. lia.
  - change (String c (x +:+ b) = String c' (y +:+ b)) in Heq.
    injection Heq as -> Heq. f_equal. by apply IH.
Qed.

Lemma connector_prompt_inj (c : AzureOpenAIConnector) (p1 p2 : string) :
  connector_prompt c p1 = connector_prompt c p2 → p1 = p2.
Proof.
  unfold connector_prompt. intros Heq%String.app_inj. by apply string_app_inv_tail in Heq.
Qed.

Lemma turn_inj (role : string) (c1 c2 : pyval) : turn role c1 = turn role c2 → c1 = c2.
Proof.
  intros Heq. apply (f_equal content_of) in Heq.
  rewrite !content_of_turn in Heq. by injection Heq.
Qed.

Section Request.

Variable server : AsyncAzureOpenAI → list (gmap string pyval) → gmap string pyval → outcome pyval.
Variable w : World.

(** X7.  Two calls on the same connector that send the same request
    were given the same prompt: wrapping the prompt in the fragments
    loses nothing of it. *)
Theorem get_response_request_determines_prompt (p1 p2 : string) :
  wire (get_response server p1 w).1 = wire (get_response server p2 w).1 → p1 = p2.
Proof.
  rewrite !get_response_world. unfold sent. cbn [wire].
  intros Heq%app_inv_head.
  assert (new_params (self w) p1 = new_params (self w) p2) as Hrequest by congruence.
  apply (f_equal (lookup "messages")) in Hrequest.
  rewrite !new_params_messages in Hrequest.
  assert (last (openai_request (self w) p1) = last (openai_request (self w) p2))
    as Hlast by congruence.
  assert (∀ p, last (openai_request (self w) p)
               = Some (turn "user" (PStr (connector_prompt (self w) p)))) as Huser
    by (intros p; unfold openai_request; by destruct (truthy _)).
  rewrite !Huser in Hlast.
  assert (PStr (connector_prompt (self w) p1) = PStr (connector_prompt (self w) p2))
    as Hcontent by (apply (turn_inj "user"); congruence).
  apply (connector_prompt_inj (self w)). congruence.
Qed.

(** X8.  Calls compose on the wire: a second call, whatever the
    first one returned or raised, appends the very request it would have
    sent on its own, after the first call's request.  In particular a
    retry with the same prompt sends the same request again. *)
Theorem get_response_twice (p1 p2 : string) :
  ∃ r1 r2 : gmap string pyval,
    wire (get_response server p1 w).1 = (wire w ++ [r1])%list ∧
    wire (get_response server p2 w).1 = (wire w ++ [r2])%list ∧
    wire (get_response server p2 (get_response server p1 w).1).1
      = (wire w ++ [r1; r2])%list.
Proof.
  exists (new_params (self w) p1), (new_params (self w) p2).
  rewrite !get_response_world. unfold sent. cbn [wire self].
  split; [done|]. split; [done|]. by rewrite <- app_assoc.
Qed.

(** X9.  The keys of the request sent are the keys of the optional
    parameters together with ['model'], ['messages'] and ['timeout']:
    nothing configured is dropped and nothing else is added. *)
Theorem get_response_request_keys (prompt : string) :
  ∃ request : gmap string pyval,
    wire (get_response server prompt w).1 = (wire w ++ [request])%list ∧
    dom request =
      ({["model"; "messages"; "timeout"]} : gset string) ∪ dom (optional_params (self w)).
Proof.
  exists (new_params (self w) prompt). rewrite get_response_world.
  split; [done|]. unfold new_params. rewrite !dom_insert_L.
  apply set_eq. intros key. rewrite !elem_of_union, !elem_of_singleton. tauto.
Qed.

(** X10.  With empty [pre_prompt] and [post_prompt] the last turn
    sent has role ['user'] and the prompt itself, unaltered, as its
    content. *)
Theorem get_response_bare_prompt (prompt : string) :
  pre_prompt (self w) = "" →
  post_prompt (self w) = "" →
  ∃ (request : gmap string pyval) (messages : list pyval) (user : pyval),
    wire (get_response server prompt w).1 = (wire w ++ [request])%list ∧
    request !! "messages" = Some (PList messages) ∧
    last messages = Some user ∧
    role_of user = Some (PStr "user") ∧
    content_of user = Some (PStr prompt).
Proof.
  intros Hpre Hpost.
  exists (new_params (self w) prompt), (openai_request (self w) prompt),
    (turn "user" (PStr prompt)).
  rewrite get_response_world. split; [done|]. split; [apply new_params_messages|].
  rewrite role_of_turn, content_of_turn. split; [|done].
  unfold openai_request, connector_prompt. rewrite Hpre, Hpost, string_app_nil_r.
  change ("" +:+ prompt) with prompt.
  by destruct (truthy (system_prompt (self w))).
Qed.

End Request.

(** * The constructor and the calls that follow it *)

Section Constructed.

Variable server : AsyncAzureOpenAI → list (gmap string pyval) → gmap string pyval → outcome pyval.
Variable prompt : string.
Variable config : Connector.
Variable earlier : list (gmap string pyval).

(** X11.  On a connector built by [__init__], the ['model'] of every
    request is the optional parameters' ['model'] when there is one and
    the empty string when there is none. *)
Theorem constructed_request_model :
  ∃ request : gmap string pyval,
    wire (get_response server prompt (constructed config earlier)).1 = (earlier ++ [request])%list ∧
    request !! "model" =
      Some (match optional_params config !! "model" with
            | Some configured => configured
            | None => PStr ""
            end).
Proof.
  exists (new_params (__init__ config) prompt). rewrite get_response_world.
  split; [done|]. unfold new_params. rewrite 2!lookup_insert_ne by done.
  by rewrite lookup_insert_eq.
Qed.

(** X12.  An ['api_version'] among the optional parameters, whatever
    its value, is the version the client was built with, and since
    [__init__] leaves the optional parameters as they are it is also
    passed along as a keyword argument of every request. *)
Theorem constructed_pinned_api_version (version : pyval) :
  optional_params config !! "api_version" = Some version →
  client_api_version (_client (self (get_response server prompt (constructed config earlier)).1)) = version ∧
  ∃ request : gmap string pyval,
    wire (get_response server prompt (constructed config earlier)).1 = (earlier ++ [request])%list ∧
    request !! "api_version" = Some version.
Proof.
  intros Hversion. rewrite get_response_world. split.
  - cbn [sent self constructed _client __init__ client_api_version].
    unfold dict_get. by rewrite Hversion.
  - exists (new_params (__init__ config) prompt). split; [done|].
    unfold new_params. by rewrite 3!lookup_insert_ne.
Qed.

(** X13.  Without an ['api_version'] among the optional parameters
    the client is built for ['2024-02-01'], and requests carry no
    ['api_version'] keyword. *)
Theorem constructed_default_api_version :
  optional_params config !! "api_version" = None →
  client_api_version (_client (self (get_response server prompt (constructed config earlier)).1))
    = PStr "2024-02-01" ∧
  ∃ request : gmap string pyval,
    wire (get_response server prompt (constructed config earlier)).1 = (earlier ++ [request])%list ∧
    request !! "api_version" = None.
Proof.
  intros Hversion. rewrite get_response_world. split.
  - cbn [sent self constructed _client __init__ client_api_version].
    unfold dict_get. by rewrite Hversion.
  - exists (new_params (__init__ config) prompt). split; [done|].
    unfold new_params. by rewrite 3!lookup_insert_ne.
Qed.

End Constructed.

(** * The further properties on concrete calls *)

(** A code given as a list holding the marker is absorbed as well. *)
Lemma get_response_absorbs_iff_witness :
  (get_response
     (answering (Raised (BadRequestError "Error code: 400" (PDict listed_code))))
     "hello" (fresh judge)).2 = Returned (PStr "listed").
Proof.
  apply (proj2 (get_response_absorbs_iff _ "hello" (fresh judge) "Error code: 400"
                  (PDict listed_code) eq_refl (PStr "listed"))).
  exists listed_code, (inner_of (PList [PStr "ResponsibleAIPolicyViolation"])),
    (PList [PStr "ResponsibleAIPolicyViolation"]).
  repeat split; vm_compute; reflexivity.
Defined.

Lemma get_response_bad_request_outcomes_witness :
  let run := get_response
               (answering (Raised (BadRequestError "Error code: 400" (PDict other_code))))
               "hello" (fresh judge) in
  (∃ v : pyval, getitem "message" (PDict other_code) = Returned v ∧ run.2 = Returned v)
  ∨ run.2 = Raised (BadRequestError "Error code: 400" (PDict other_code))
  ∨ run.2 = Raised TypeError.
Proof.
  exact (get_response_bad_request_outcomes _ "hello" (fresh judge) "Error code: 400"
           (PDict other_code) eq_refl).
Defined.

Lemma get_response_masks_with_TypeError_iff_witness :
  (get_response
     (answering (Raised (BadRequestError "Error code: 400" (PDict null_innererror))))
     "hello" (fresh judge)).2 = Raised TypeError.
Proof.
  apply (proj2 (get_response_masks_with_TypeError_iff _ "hello" (fresh judge)
                  "Error code: 400" (PDict null_innererror) eq_refl)).
  exists null_innererror, PNone. split; [reflexivity|]. split; [vm_compute; reflexivity|].
  left. reflexivity.
Defined.

Lemma get_response_reraises_unabsorbed_witness :
  (get_response
     (answering (Raised (BadRequestError "Error code: 400" (PDict other_code))))
     "hello" (fresh judge)).2
  = Raised (BadRequestError "Error code: 400" (PDict other_code)).
Proof.
  apply (get_response_reraises_unabsorbed _ "hello" (fresh judge)); [reflexivity|].
  apply (unabsorbed_other_code other_code (inner_of (PStr "OtherCode")) "OtherCode");
    vm_compute; reflexivity.
Defined.

Lemma get_response_propagates_other_witness :
  (get_response (answering (Raised (OtherException "APITimeoutError" "Request timed out.")))
     "hello" (fresh judge)).2
  = Raised (OtherException "APITimeoutError" "Request timed out.").
Proof.
  apply (get_response_propagates_other _ "hello" (fresh judge)); reflexivity.
Defined.

Lemma get_response_returns_iff_witness :
  ∃ (c0 message : pyval) (others : list pyval),
    getattr "choices" (completion [choice (PStr "4"); choice (PStr "four")])
      = Returned (PList (c0 :: others)) ∧
    getattr "message" c0 = Returned message ∧
    getattr "content" message = Returned (PStr "4").
Proof.
  apply (proj1 (get_response_returns_iff
                  (answering (Returned (completion [choice (PStr "4"); choice (PStr "four")])))
                  "2+2?" (fresh judge) _ eq_refl (PStr "4"))).
  vm_compute. reflexivity.
Defined.

Lemma get_response_extraction_errors_witness :
  IndexError = AttributeError "choices" ∨ IndexError = AttributeError "message"
  ∨ IndexError = AttributeError "content" ∨ IndexError = IndexError
  ∨ IndexError = TypeError ∨ IndexError = KeyError (PInt 0).
Proof.
  apply (get_response_extraction_errors (answering (Returned (completion [])))
           "2+2?" (fresh judge) (completion []) eq_refl IndexError).
  vm_compute. reflexivity.
Defined.

Lemma get_response_without_choices_raises_witness :
  (get_response (answering (Returned PNone)) "2+2?" (fresh judge)).2
  = Raised (AttributeError "choices").
Proof.
  apply (get_response_without_choices_raises (answering (Returned PNone))
           "2+2?" (fresh judge) PNone eq_refl).
  intros attrs Hobject. discriminate Hobject.
Defined.

Lemma get_response_request_determines_prompt_witness : "hello" = "hello".
Proof.
  apply (get_response_request_determines_prompt (answering (Raised TypeError))
           (fresh judge) "hello" "hello").
  reflexivity.
Defined.

Lemma get_response_bare_prompt_witness :
  ∃ (request : gmap string pyval) (messages : list pyval) (user : pyval),
    wire (get_response (answering (Raised TypeError)) "hello" (fresh bare)).1 = [request] ∧
    request !! "messages" = Some (PList messages) ∧
    last messages = Some user ∧
    role_of user = Some (PStr "user") ∧
    content_of user = Some (PStr "hello").
Proof.
  apply (get_response_bare_prompt (answering (Raised TypeError)) (fresh bare) "hello");
    reflexivity.
Defined.

Lemma constructed_pinned_api_version_witness :
  client_api_version
    (_client (self (get_response (answering (Raised TypeError)) "hello"
                      (constructed pinned [])).1)) = PStr "2024-10-21" ∧
  ∃ request : gmap string pyval,
    wire (get_response (answering (Raised TypeError)) "hello" (constructed pinned [])).1
      = [request] ∧
    request !! "api_version" = Some (PStr "2024-10-21").
Proof.
  apply (constructed_pinned_api_version (answering (Raised TypeError)) "hello" pinned []).
  vm_compute. reflexivity.
Defined.

Lemma constructed_default_api_version_witness :
  client_api_version
    (_client (self (get_response (answering (Raised TypeError)) "hello"
                      (constructed bare [])).1)) = PStr "2024-02-01" ∧
  ∃ request : gmap string pyval,
    wire (get_response (answering (Raised TypeError)) "hello" (constructed bare [])).1
      = [request] ∧
    request !! "api_version" = None.
Proof.
  apply (constructed_default_api_version (answering (Raised TypeError)) "hello" bare []).
  vm_compute. reflexivity.
Defined.
